(** * GoalQuest: the goal state engine of [src/App.tsx]

    A shallow embedding of the habit tracker's state container: the goal
    records of [types.ts], the handlers [addGoal], [deleteGoal],
    [toggleGoal] and [addPhoto], the three effects that load and save the
    persisted collection and raise the daily reminder, and the sessions
    they make up together.

    Conventions of the embedding:
    - a TypeScript [number] that only ever holds a counter is a [Z];
    - [string | null] is [option string], and [===] on it is decidable
      equality on [option string];
    - [localStorage] is a finite map from keys to strings, [getItem] is
      lookup, and [setItem] is insert when the browser's quota admits the
      store it produces and a thrown [QuotaExceededError] otherwise;
    - no error boundary surrounds the component, so an error that an effect
      throws and does not catch unmounts it;
    - a [setGoals (prev => f prev)] call replaces the [goals] field by [f]
      applied to the current collection;
    - calls that talk to the user or the console ([setNotification],
      [console.error], [alert]) are also appended to a trace, so that
      "a reminder fires" is an observable of the state. *)

From Stdlib Require Import ZArith Lia.
From stdpp Require Import base strings pretty list gmap.
From Ceres Require CeresSerialize CeresDeserialize.

Local Open Scope string_scope.
Local Open Scope list_scope.
Local Open Scope Z_scope.

(** ** Data model ([types.ts]) *)

Module PhotoEntry.
Record t : Type := mk {
  id : string;
  date : string;
  dataUrl : string
}.

#[global] Instance PhotoEntry_eq_dec : EqDecision t.
Proof. solve_decision. Defined.
End PhotoEntry.

Module Goal.
Record t : Type := mk {
  id : string;
  title : string;
  description : string;
  createdAt : string;
  streak : Z;
  lastCompletedDate : option string;
  photos : list PhotoEntry.t
}.

#[global] Instance Goal_eq_dec : EqDecision t.
Proof. solve_decision. Defined.

(** [{ ...goal, lastCompletedDate: d, streak: s }] *)
Definition with_completion (goal : t) (d : option string) (s : Z) : t :=
  mk (id goal) (title goal) (description goal) (createdAt goal)
     s d (photos goal).

(** [{ ...goal, photos: ps }] *)
Definition with_photos (goal : t) (ps : list PhotoEntry.t) : t :=
  mk (id goal) (title goal) (description goal) (createdAt goal)
     (streak goal) (lastCompletedDate goal) ps.
End Goal.

(** ** The streak transition (the callback of [toggleGoal]) *)

(** The four places where the callback can leave its [if] cascade. *)
Inductive Branch : Type :=
  | Uncheck          (* lastCompletedDate === today, first test *)
  | Continuation     (* lastCompletedDate === yesterday *)
  | Safety           (* lastCompletedDate === today, second test *)
  | BrokenOrNew.     (* final else *)

#[global] Instance Branch_eq_dec : EqDecision Branch.
Proof. solve_decision. Defined.

(** The body of the [map] callback for the goal whose id matched, together
    with the branch it took.  [today] and [yesterday] are the values of
    [getTodayDateString ()] and [getYesterdayDateString ()]. *)
Definition toggle_traced (today yesterday : string) (goal : Goal.t)
  : Branch * Goal.t :=
  if decide (Goal.lastCompletedDate goal = Some today) then
    (Uncheck,
     Goal.with_completion goal None (Z.max 0 (Goal.streak goal - 1)))
  else
    let '(b, newStreak) :=
      if decide (Goal.lastCompletedDate goal = Some yesterday) then
        (Continuation, Goal.streak goal + 1)
      else if decide (Goal.lastCompletedDate goal = Some today) then
        (Safety, Goal.streak goal)
      else
        (BrokenOrNew, 1)
    in
    (b, Goal.with_completion goal (Some today) newStreak).

Definition toggle (today yesterday : string) (goal : Goal.t) : Goal.t :=
  (toggle_traced today yesterday goal).2.

(** The policy of the streak engine as its description words it: two
    rules, no third test. *)
Definition policy_toggle (today yesterday : string) (goal : Goal.t) : Goal.t :=
  if decide (Goal.lastCompletedDate goal = Some today) then
    Goal.with_completion goal None (Z.max 0 (Goal.streak goal - 1))
  else if decide (Goal.lastCompletedDate goal = Some yesterday) then
    Goal.with_completion goal (Some today) (Goal.streak goal + 1)
  else
    Goal.with_completion goal (Some today) 1.

(** ** The state container of [App] *)

(** What the component says to the outside world. *)
Inductive Event : Type :=
  | SetNotification (message : string)
  | ConsoleError (message : string)
  | Alert (message : string).

#[global] Instance Event_eq_dec : EqDecision Event.
Proof. solve_decision. Defined.

(** The [useState] cells that carry data, the browser's [localStorage],
    the trace of outward calls, and how many identifiers and timestamps the
    platform has handed out so far. *)
Record App : Type := mkApp {
  goals : list Goal.t;
  loading : bool;
  notification : option string;
  localStorage : gmap string string;
  trace : list Event;
  uuid_calls : nat;
  clock_reads : nat
}.

Definition setGoals (f : list Goal.t → list Goal.t) (a : App) : App :=
  mkApp (f (goals a)) (loading a) (notification a) (localStorage a)
        (trace a) (uuid_calls a) (clock_reads a).

Definition setLoading (b : bool) (a : App) : App :=
  mkApp (goals a) b (notification a) (localStorage a)
        (trace a) (uuid_calls a) (clock_reads a).

Definition setNotification (m : string) (a : App) : App :=
  mkApp (goals a) (loading a) (Some m) (localStorage a)
        (trace a ++ [SetNotification m]) (uuid_calls a) (clock_reads a).

(** The state once the browser has stored [v] under [k]. *)
Definition stored (k v : string) (a : App) : App :=
  mkApp (goals a) (loading a) (notification a) (<[k := v]> (localStorage a))
        (trace a) (uuid_calls a) (clock_reads a).

(** [localStorage.setItem (k, v)].  [fits] tells whether the browser's
    quota admits a store; the call stores the pair when the store it
    produces fits and throws otherwise, which is [None] here. *)
Definition setItem (fits : gmap string string → bool) (k v : string)
    (a : App) : option App :=
  if fits (localStorage (stored k v a)) then Some (stored k v a) else None.

(** How an effect ends: it returns and the component goes on in the state
    given, or it throws.  Nothing catches what an effect throws, so the
    component is unmounted; the state given is the one it was in when the
    error was thrown, and nothing runs after it. *)
Inductive Outcome : Type :=
  | Running (a : App)
  | Unmounted (a : App).

Definition last_state (o : Outcome) : App :=
  match o with Running a | Unmounted a => a end.

Definition emit (e : Event) (a : App) : App :=
  mkApp (goals a) (loading a) (notification a) (localStorage a)
        (trace a ++ [e]) (uuid_calls a) (clock_reads a).

(** The component as first mounted over a given storage. *)
Definition mount (storage : gmap string string) : App :=
  mkApp [] true None storage [] 0 0.

(** *** Daily reminder (third [useEffect]) *)

Definition reminder (goalTitle : string) : string :=
  "Don't forget " +:+ goalTitle +:+ "! Keep your streak alive 🔥".

(** The part of the effect after its [loading] guard.  The stamp is
    written after the reminder is raised and outside any [try]. *)
Definition notificationCheck (fits : gmap string string → bool)
    (today : string) (a : App) : Outcome :=
  let lastNotified := localStorage a !! "lastNotificationDate" in
  if bool_decide (lastNotified ≠ Some today)
     && bool_decide (0 < length (goals a))%nat
  then
    match find (λ g, bool_decide (Goal.lastCompletedDate g ≠ Some today))
               (goals a) with
    | Some incompleteGoal =>
        let a1 := setNotification (reminder (Goal.title incompleteGoal)) a in
        match setItem fits "lastNotificationDate" today a1 with
        | Some a2 => Running a2
        | None => Unmounted a1
        end
    | None => Running a
    end
  else Running a.

Definition notificationEffect (fits : gmap string string → bool)
    (today : string) (a : App) : Outcome :=
  if loading a then Running a else notificationCheck fits today a.

(** *** [toggleGoal] *)

Definition toggleGoal (today yesterday : string) (id : string) (a : App) : App :=
  setGoals
    (map (λ goal,
       if decide (Goal.id goal ≠ id) then goal
       else toggle today yesterday goal))
    a.

(** *** [deleteGoal]; [confirmed] is the answer of [window.confirm] *)

Definition deleteGoal (confirmed : bool) (id : string) (a : App) : App :=
  if confirmed
  then setGoals (filter (λ g, Goal.id g ≠ id)) a
  else a.

Section Platform.
(** Browser primitives the component calls.  [JSON_parse s] is [None]
    when [JSON.parse] throws; [randomUUID n] and [toISOString n] are what
    the n-th call of [crypto.randomUUID ()] and of
    [new Date ().toISOString ()] return. *)
Context (JSON_parse : string → option (list Goal.t)).
Context (randomUUID : nat → string).
Context (toISOString : nat → string).

(** **** Loading (first [useEffect]); the empty string is falsy *)
Definition loadEffect (a : App) : App :=
  let a1 :=
    match localStorage a !! "goalQuestData" with
    | Some saved =>
        if decide (saved ≠ "") then
          match JSON_parse saved with
          | Some parsed => setGoals (λ _, parsed) a
          | None => emit (ConsoleError "Failed to parse goals") a
          end
        else a
    | None => a
    end
  in
  setLoading false a1.

(** **** [addGoal] *)
Definition addGoal (title description : string) (a : App) : App :=
  let newGoal :=
    Goal.mk (randomUUID (uuid_calls a)) title description
            (toISOString (clock_reads a)) 0 None [] in
  mkApp (newGoal :: goals a) (loading a) (notification a) (localStorage a)
        (trace a) (S (uuid_calls a)) (S (clock_reads a)).

(** **** [addPhoto] *)

(** What [await resizeImage file] comes back with. *)
Inductive Awaited : Type :=
  | Resolved (resizedBase64 : string)
  | Rejected (error : string).

(** The [map] of [addPhoto]: its callback draws a fresh identifier and a
    timestamp for every goal it rewrites, so the two counters are
    threaded through the traversal. *)
Fixpoint attach (id resizedBase64 : string) (u c : nat) (gs : list Goal.t)
  : list Goal.t * (nat * nat) :=
  match gs with
  | [] => ([], (u, c))
  | goal :: rest =>
      if decide (Goal.id goal ≠ id) then
        let '(rest', uc) := attach id resizedBase64 u c rest in
        (goal :: rest', uc)
      else
        let entry :=
          PhotoEntry.mk (randomUUID u) (toISOString c) resizedBase64 in
        let '(rest', uc) := attach id resizedBase64 (S u) (S c) rest in
        (Goal.with_photos goal (Goal.photos goal ++ [entry]) :: rest', uc)
  end.

Definition addPhoto (id : string) (resized : Awaited) (a : App) : App :=
  match resized with
  | Resolved resizedBase64 =>
      let '(gs, (u, c)) :=
        attach id resizedBase64 (uuid_calls a) (clock_reads a) (goals a) in
      mkApp gs (loading a) (notification a) (localStorage a)
            (trace a) u c
  | Rejected _ =>
      emit (Alert "Failed to process image. Try a smaller file.")
        (emit (ConsoleError "Error processing image") a)
  end.
End Platform.

Arguments Resolved resizedBase64%_string.
Arguments Rejected error%_string.

(** ** Observations and sample data *)

Definition is_reminder (e : Event) : bool :=
  match e with SetNotification _ => true | _ => false end.

(** The number of reminders among a run of events. *)
Definition reminders (evs : list Event) : nat :=
  length (List.filter is_reminder evs).

(** What the traversal of [addPhoto] does to the goal at one position. *)
Definition attached (id resizedBase64 : string) (g g' : Goal.t) : Prop :=
  (Goal.id g ≠ id → g' = g)
  ∧ (Goal.id g = id →
       ∃ entry, PhotoEntry.dataUrl entry = resizedBase64
                ∧ g' = Goal.with_photos g (Goal.photos g ++ [entry])).

(** *** Goals and component states of the scenarios *)

(** The goal of the two streak scenarios: streak 5, last completed on
    2024-01-01. *)
Definition read_goal : Goal.t :=
  Goal.mk "g-1" "Read" "" "2023-12-01T08:00:00.000Z" 5 (Some "2024-01-01") [].

(** A goal whose stored counter is below the floor, as a hand-edited or
    foreign [goalQuestData] entry can contain. *)
Definition debt_goal : Goal.t :=
  Goal.mk "g-2" "Run" "" "2023-12-01T08:00:00.000Z" (-5) (Some "2024-01-01") [].

(** A goal as [addGoal] makes it. *)
Definition fresh_goal : Goal.t :=
  Goal.mk "g-3" "Write" "" "2024-01-05T07:30:00.000Z" 0 None [].

(** A goal already completed on 2024-01-05, and a loaded collection that
    starts with it. *)
Definition done_goal : Goal.t :=
  Goal.mk "g-4" "Stretch" "" "2024-01-02T06:00:00.000Z" 3 (Some "2024-01-05") [].

Definition midday : App :=
  mkApp [done_goal; read_goal; fresh_goal] false None
        {[ "lastNotificationDate" := "2024-01-04" ]} [] 0 0.

(** A quota that admits every store and one that admits none, as a
    browser does whose storage is disabled or full. *)
Definition roomy (store : gmap string string) : bool := true.

Definition exhausted (store : gmap string string) : bool := false.

(** A loaded component holding the scenario goal, not yet reminded. *)
Definition morning : App :=
  mkApp [fresh_goal; read_goal] false None
        {[ "lastNotificationDate" := "2024-01-04" ]} [] 0 0.

(** The same component after it has been reminded on 2024-01-05. *)
Definition reminded : App :=
  last_state (notificationEffect roomy "2024-01-05" morning).


(** Plain counters standing in for the platform's generators. *)
Definition sample_uuid (n : nat) : string :=
  "uuid-" +:+ pretty n.

Definition sample_clock (n : nat) : string :=
  "2024-01-05T09:00:0" +:+ pretty n +:+ ".000Z".

(** A stand-in decoder for the examples: it reads the empty array literal
    and rejects every other text.  On the three texts the examples store
    (the empty array literal, the empty string and an unclosed brace) it
    answers as [JSON.parse] does. *)
Definition sample_parse (s : string) : option (list Goal.t) :=
  if decide (s = "[]") then Some [] else None.

(** ** The rest of the component *)

(** *** Dismissing the banner: [onClick={() => setNotification(null)}]

    Clearing the cell shows nothing to the user, so the trace, which
    records the reminders shown, is left as it is. *)
Definition dismissNotification (a : App) : App :=
  mkApp (goals a) (loading a) None (localStorage a)
        (trace a) (uuid_calls a) (clock_reads a).

(** *** The streak badge: [goals.filter(g => g.streak > 0).length] *)
Definition activeStreaksCount (a : App) : nat :=
  length (filter (λ g, 0 < Goal.streak g) (goals a)).

(** The shape the data model is meant to have: a counter that is never
    negative, and at least one once the goal carries a completion date. *)
Definition wellformed (g : Goal.t) : Prop :=
  0 ≤ Goal.streak g
  ∧ (Goal.lastCompletedDate g ≠ None → 1 ≤ Goal.streak g).

Section Persistence.
(** [JSON_stringify] is [JSON.stringify] on a goal collection; [fits] is
    the browser's quota, as in [setItem]. *)
Context (JSON_stringify : list Goal.t → string).
Context (fits : gmap string string → bool).

(** **** Saving (second [useEffect]) *)
Definition saveEffect (a : App) : App :=
  if negb (loading a) then
    match setItem fits "goalQuestData" (JSON_stringify (goals a)) a with
    | Some a' => a'
    | None =>
        emit (Alert "Storage limit reached! Please delete some photos or goals.") a
    end
  else a.

(** **** One commit of the component

    The save effect and the reminder effect both depend on [goals] and
    [loading]; after a render in which one of the two changed, React runs
    them in the order they are declared.  The save effect catches what
    its write throws; the reminder effect does not. *)
Definition commitEffects (today : string) (a : App) : Outcome :=
  notificationEffect fits today (saveEffect a).

(** **** Start-up

    On mount all three effects run against the first render, where
    [loading] is true: saving and reminding return at once, loading queues
    its two updates.  The render that follows sees the loaded collection
    with [loading] false and runs the save and reminder effects again. *)
Definition startup (JSON_parse : string → option (list Goal.t))
    (today : string) (storage : gmap string string) : Outcome :=
  match notificationEffect fits today (saveEffect (mount storage)) with
  | Running first => commitEffects today (loadEffect JSON_parse first)
  | Unmounted first => Unmounted first
  end.

(** **** What the user can do with a loaded component *)
Inductive Action : Type :=
  | DoAddGoal (title description : string)
  | DoDeleteGoal (confirmed : bool) (id : string)
  | DoToggleGoal (id : string)
  | DoAddPhoto (id : string) (resized : Awaited)
  | DoDismiss.

Context (randomUUID : nat → string).
Context (toISOString : nat → string).

(** The handler behind each action. *)
Definition handle (today yesterday : string) (act : Action) (a : App) : App :=
  match act with
  | DoAddGoal title description =>
      addGoal randomUUID toISOString title description a
  | DoDeleteGoal confirmed id => deleteGoal confirmed id a
  | DoToggleGoal id => toggleGoal today yesterday id a
  | DoAddPhoto id resized => addPhoto randomUUID toISOString id resized a
  | DoDismiss => dismissNotification a
  end.

(** Whether the handler reaches a [setGoals] call.  The arrays that [map],
    [filter] and the spread build are new objects, so every such call
    changes [goals] in React's eyes and makes the two effects run again. *)
Definition calls_setGoals (act : Action) : bool :=
  match act with
  | DoAddGoal _ _ => true
  | DoDeleteGoal confirmed _ => confirmed
  | DoToggleGoal _ => true
  | DoAddPhoto _ (Resolved _) => true
  | DoAddPhoto _ (Rejected _) => false
  | DoDismiss => false
  end.

Definition step (today yesterday : string) (a : App) (act : Action)
  : Outcome :=
  let a' := handle today yesterday act a in
  if calls_setGoals act then commitEffects today a' else Running a'.

(** A session on one calendar day.  It ends early if the component is
    unmounted: there is nothing left to act on. *)
Fixpoint run (today yesterday : string) (acts : list Action) (a : App)
  : Outcome :=
  match acts with
  | [] => Running a
  | act :: rest =>
      match step today yesterday a act with
      | Running a' => run today yesterday rest a'
      | Unmounted a' => Unmounted a'
      end
  end.
End Persistence.

(** Every goal id was drawn from the identifier generator, and no two goals
    share one. *)
Definition ids_issued (randomUUID : nat → string) (a : App) : Prop :=
  NoDup (Goal.id <$> goals a)
  ∧ Forall (λ i, ∃ n, (n < uuid_calls a)%nat ∧ i = randomUUID n)
           (Goal.id <$> goals a).

(** A stand-in encoder that agrees with [JSON.stringify] on the empty
    collection. *)
Definition sample_stringify (gs : list Goal.t) : string :=
  match gs with [] => "[]" | _ :: _ => "[{}]" end.

(** A stand-in codec that handles every collection: goals are written as
    S-expressions, field by field, and read back from them.  The text
    differs from JSON; what the examples need from it is that reading gives
    back what was written. *)
Definition photo_fields (p : PhotoEntry.t) : string * string * string :=
  (PhotoEntry.id p, PhotoEntry.date p, PhotoEntry.dataUrl p).

Definition photo_of_fields (f : string * string * string) : PhotoEntry.t :=
  PhotoEntry.mk f.1.1 f.1.2 f.2.

Definition goal_fields (g : Goal.t)
  : string * string * string * string * Z * option string
    * list (string * string * string) :=
  (Goal.id g, Goal.title g, Goal.description g, Goal.createdAt g,
   Goal.streak g, Goal.lastCompletedDate g, map photo_fields (Goal.photos g)).

Definition goal_of_fields
    (f : string * string * string * string * Z * option string
         * list (string * string * string)) : Goal.t :=
  Goal.mk f.1.1.1.1.1.1 f.1.1.1.1.1.2 f.1.1.1.1.2 f.1.1.1.2 f.1.1.2 f.1.2
          (map photo_of_fields f.2).

Definition sexp_stringify (gs : list Goal.t) : string :=
  CeresSerialize.to_string (map goal_fields gs).

Definition sexp_parse (s : string) : option (list Goal.t) :=
  match CeresDeserialize.from_string s with
  | inr fields => Some (map goal_of_fields fields)
  | inl _ => None
  end.

(** A goal unchecked after a long run. *)
Definition streak_goal : Goal.t :=
  Goal.mk "g-5" "Swim" "" "2023-11-01T06:00:00.000Z" 10 (Some "2024-01-05") [].

(** A loaded component with no goals and nothing stored. *)
Definition blank : App := mkApp [] false None ∅ [] 0 0.

(** A day of use: a goal is added, one is checked, a photo fails to
    decode, the banner is dismissed and a goal is deleted. *)
Definition busy_day : list Action :=
  [DoAddGoal "Cook" "dinner at home"; DoToggleGoal "g-1";
   DoAddPhoto "g-3" (Rejected "not an image"); DoDismiss;
   DoAddGoal "Walk" ""; DoDeleteGoal true "g-4"].

(** ** The scenarios of the streak engine *)

Example toggle_next_day :
  toggle "2024-01-02" "2024-01-01" read_goal
  = Goal.with_completion read_goal (Some "2024-01-02") 6.
Proof. reflexivity. Qed.

Example toggle_after_gap :
  toggle "2024-01-05" "2024-01-04" read_goal
  = Goal.with_completion read_goal (Some "2024-01-05") 1.
Proof. reflexivity. Qed.

(** ** Properties of the streak transition *)

Lemma with_completion_same (goal : Goal.t) :
  Goal.with_completion goal (Goal.lastCompletedDate goal) (Goal.streak goal)
  = goal.
Proof. by destruct goal. Qed.

Lemma toggle_unfold today yesterday goal :
  toggle today yesterday goal =
  if decide (Goal.lastCompletedDate goal = Some today) then
    Goal.with_completion goal None (Z.max 0 (Goal.streak goal - 1))
  else
    Goal.with_completion goal (Some today)
      (if decide (Goal.lastCompletedDate goal = Some yesterday)
       then Goal.streak goal + 1 else 1).
Proof.
  unfold toggle, toggle_traced.
  destruct (decide (Goal.lastCompletedDate goal = Some today)) as [Ht|Ht];
    [reflexivity|].
  destruct (decide (Goal.lastCompletedDate goal = Some yesterday));
    [reflexivity|].
  destruct (decide (Goal.lastCompletedDate goal = Some today));
    [contradiction|reflexivity].
Qed.

(** Only the two completion fields are ever rewritten. *)
Lemma toggle_frame today yesterday goal :
  Goal.id (toggle today yesterday goal) = Goal.id goal
  ∧ Goal.title (toggle today yesterday goal) = Goal.title goal
  ∧ Goal.description (toggle today yesterday goal) = Goal.description goal
  ∧ Goal.createdAt (toggle today yesterday goal) = Goal.createdAt goal
  ∧ Goal.photos (toggle today yesterday goal) = Goal.photos goal.
Proof.
  rewrite toggle_unfold.
  destruct (decide (Goal.lastCompletedDate goal = Some today)); by cbn.
Qed.

(** C1: [toggle] follows the two-rule policy.  A goal already completed
    today is unchecked: its date becomes absent and its streak drops by one,
    floored at zero.  Any other goal is completed today; its streak grows by
    one when it was last completed yesterday and restarts at one
    otherwise. *)
Theorem toggle_two_rule_policy (today yesterday : string) (goal : Goal.t) :
  (Goal.lastCompletedDate goal = Some today →
     Goal.lastCompletedDate (toggle today yesterday goal) = None
     ∧ Goal.streak (toggle today yesterday goal)
       = Z.max 0 (Goal.streak goal - 1))
  ∧ (Goal.lastCompletedDate goal ≠ Some today →
     Goal.lastCompletedDate (toggle today yesterday goal) = Some today
     ∧ (Goal.lastCompletedDate goal = Some yesterday →
          Goal.streak (toggle today yesterday goal) = Goal.streak goal + 1)
     ∧ (Goal.lastCompletedDate goal ≠ Some yesterday →
          Goal.streak (toggle today yesterday goal) = 1)).
Proof.
  rewrite toggle_unfold. split; intros Ht.
  - rewrite decide_True by assumption. by cbn.
  - rewrite decide_False by assumption. cbn. split; [reflexivity|].
    split; intros Hy.
    + by rewrite decide_True.
    + by rewrite decide_False.
Qed.

(** The two scenarios of the streak engine, obtained from the policy. *)
Lemma toggle_two_rule_policy_witness :
  (Goal.lastCompletedDate (toggle "2024-01-02" "2024-01-01" read_goal)
     = Some "2024-01-02"
   ∧ Goal.streak (toggle "2024-01-02" "2024-01-01" read_goal) = 6)
  ∧ (Goal.lastCompletedDate
       (toggle "2024-01-02" "2024-01-01"
          (toggle "2024-01-02" "2024-01-01" read_goal)) = None).
Proof.
  split.
  - destruct (toggle_two_rule_policy "2024-01-02" "2024-01-01" read_goal)
      as [_ Hcomplete].
    destruct Hcomplete as (Hdate & Hcont & _); [discriminate|].
    split; [exact Hdate|]. apply Hcont. reflexivity.
  - destruct (toggle_two_rule_policy "2024-01-02" "2024-01-01"
                (toggle "2024-01-02" "2024-01-01" read_goal))
      as [Huncheck _].
    apply Huncheck. reflexivity.
Defined.

(** C2, as stated, fails: the continuation branch adds one to whatever the
    counter was, so a goal stored with streak -5 and completed yesterday
    comes out with streak -4. *)
Lemma toggle_negative_streak_survives :
  Goal.streak (toggle "2024-01-02" "2024-01-01" debt_goal) = -4
  ∧ ¬ (0 ≤ Goal.streak (toggle "2024-01-02" "2024-01-01" debt_goal)).
Proof.
  assert (Goal.streak (toggle "2024-01-02" "2024-01-01" debt_goal) = -4)
    as Hs by reflexivity.
  split; [exact Hs|]. rewrite Hs. lia.
Qed.

(** C2, amended: [streak >= 0] is preserved by every toggle, and more
    precisely the result is non-negative exactly when the goal is unchecked,
    or restarted, or continued from a counter of at least -1. *)
Theorem toggle_streak_nonneg (today yesterday : string) (goal : Goal.t) :
  (0 ≤ Goal.streak goal → 0 ≤ Goal.streak (toggle today yesterday goal))
  ∧ (0 ≤ Goal.streak (toggle today yesterday goal)
     ↔ Goal.lastCompletedDate goal = Some today
       ∨ Goal.lastCompletedDate goal ≠ Some yesterday
       ∨ -1 ≤ Goal.streak goal).
Proof.
  rewrite toggle_unfold.
  destruct (decide (Goal.lastCompletedDate goal = Some today)) as [Ht|Ht];
    cbn.
  - split; [lia|]. split; [by left | lia].
  - destruct (decide (Goal.lastCompletedDate goal = Some yesterday))
      as [Hy|Hy].
    + split; [lia|]. split.
      * intros H. right. right. lia.
      * intros [H|[H|H]]; [contradiction | contradiction | lia].
    + split; [lia|]. split; [by (right; left) | lia].
Qed.

Lemma toggle_streak_nonneg_witness :
  0 ≤ Goal.streak (toggle "2024-01-02" "2024-01-01" read_goal).
Proof.
  apply (toggle_streak_nonneg "2024-01-02" "2024-01-01" read_goal).
  simpl. lia.
Defined.

(** C3, as stated, fails: completing and then unchecking a goal that was
    last completed four days ago gives back neither its date nor its
    streak. *)
Lemma toggle_twice_not_restoring :
  Goal.lastCompletedDate read_goal ≠ Some "2024-01-05"
  ∧ Goal.streak
      (toggle "2024-01-05" "2024-01-04"
         (toggle "2024-01-05" "2024-01-04" read_goal))
    ≠ Goal.streak read_goal
  ∧ Goal.lastCompletedDate
      (toggle "2024-01-05" "2024-01-04"
         (toggle "2024-01-05" "2024-01-04" read_goal))
    ≠ Goal.lastCompletedDate read_goal.
Proof. split; [discriminate|]. split; cbn; discriminate. Qed.

(** C3, amended: completing and then unchecking on the same day always
    leaves the date absent; the streak comes back (floored at zero) when the
    goal was last completed yesterday and is zero otherwise.  The round trip
    is therefore the identity exactly on goals with no completion date and
    streak zero. *)
Theorem toggle_twice (today yesterday : string) (goal : Goal.t) :
  Goal.lastCompletedDate goal ≠ Some today →
  toggle today yesterday (toggle today yesterday goal)
  = Goal.with_completion goal None
      (if decide (Goal.lastCompletedDate goal = Some yesterday)
       then Z.max 0 (Goal.streak goal) else 0)
  ∧ (toggle today yesterday (toggle today yesterday goal) = goal
     ↔ Goal.lastCompletedDate goal = None ∧ Goal.streak goal = 0).
Proof.
  intros Ht.
  assert (toggle today yesterday (toggle today yesterday goal)
          = Goal.with_completion goal None
              (if decide (Goal.lastCompletedDate goal = Some yesterday)
               then Z.max 0 (Goal.streak goal) else 0)) as Heq.
  { rewrite (toggle_unfold today yesterday goal).
    rewrite decide_False by assumption.
    rewrite toggle_unfold. cbn. rewrite decide_True by reflexivity.
    unfold Goal.with_completion; cbn.
    destruct (decide (Goal.lastCompletedDate goal = Some yesterday));
      f_equal; lia. }
  split; [exact Heq|]. rewrite Heq. split.
  - intros Hid.
    assert (Goal.lastCompletedDate goal = None) as Hnone
      by (rewrite <- Hid; reflexivity).
    split; [exact Hnone|].
    rewrite decide_False in Hid by (rewrite Hnone; discriminate).
    rewrite <- Hid. reflexivity.
  - intros [Hnone Hzero].
    rewrite decide_False by (rewrite Hnone; discriminate).
    rewrite <- Hnone, <- Hzero. apply with_completion_same.
Qed.

Lemma toggle_twice_witness :
  toggle "2024-01-05" "2024-01-04"
    (toggle "2024-01-05" "2024-01-04" read_goal)
  = Goal.with_completion read_goal None 0
  ∧ toggle "2024-01-05" "2024-01-04"
      (toggle "2024-01-05" "2024-01-04" fresh_goal) = fresh_goal.
Proof.
  split.
  - apply (toggle_twice "2024-01-05" "2024-01-04" read_goal). discriminate.
  - apply (toggle_twice "2024-01-05" "2024-01-04" fresh_goal);
      [discriminate | split; reflexivity].
Defined.

(** C10: the second test of [lastCompletedDate === today] is dead code,
    and the callback computes the two-rule policy. *)
Theorem toggle_refines_policy (today yesterday : string) (goal : Goal.t) :
  (toggle_traced today yesterday goal).1 ≠ Safety
  ∧ toggle today yesterday goal = policy_toggle today yesterday goal.
Proof.
  unfold toggle, policy_toggle, toggle_traced.
  destruct (decide (Goal.lastCompletedDate goal = Some today)) as [Ht|Ht];
    [by split|].
  destruct (decide (Goal.lastCompletedDate goal = Some yesterday));
    [by split|].
  destruct (decide (Goal.lastCompletedDate goal = Some today));
    [contradiction | by split].
Qed.

(** ** Properties of the daily reminder *)

(** [Array.prototype.find] returns the first element that passes the test:
    everything before it failed. *)
Lemma find_first {A} (p : A → bool) (pre post : list A) (x : A) :
  Forall (λ y, p y = false) pre → p x = true →
  find p (pre ++ x :: post) = Some x.
Proof.
  induction 1 as [|y pre Hy _ IH]; intros Hx; cbn.
  - by rewrite Hx.
  - rewrite Hy. by apply IH.
Qed.

Lemma find_none {A} (p : A → bool) (l : list A) :
  Forall (λ y, p y = false) l → find p l = None.
Proof. induction 1 as [|y l Hy _ IH]; cbn; [done|]. by rewrite Hy. Qed.

Lemma completed_today_test today (g : Goal.t) :
  Goal.lastCompletedDate g = Some today →
  bool_decide (Goal.lastCompletedDate g ≠ Some today) = false.
Proof. intros H. apply bool_decide_eq_false. tauto. Qed.

(** The check returns at once, or it raises the reminder for one goal of
    the collection and then either stamps the day or is thrown out by the
    refused write. *)
Lemma notificationCheck_cases fits today a :
  notificationCheck fits today a = Running a
  ∨ ∃ g, g ∈ goals a
       ∧ (notificationCheck fits today a
          = Running (stored "lastNotificationDate" today
                       (setNotification (reminder (Goal.title g)) a))
          ∨ notificationCheck fits today a
            = Unmounted (setNotification (reminder (Goal.title g)) a)).
Proof.
  unfold notificationCheck.
  destruct (bool_decide _ && bool_decide _); [|by left].
  destruct (find _ (goals a)) as [g|] eqn:Hfind; [|by left].
  right. exists g. split.
  - apply find_some in Hfind as [Hin _]. by apply list_elem_of_In.
  - unfold setItem. destruct (fits _); [by left | by right].
Qed.

Lemma notificationCheck_stamped fits today a :
  localStorage a !! "lastNotificationDate" = Some today →
  notificationCheck fits today a = Running a.
Proof.
  intros Hlast. unfold notificationCheck.
  rewrite (bool_decide_eq_false_2 (_ ≠ _)); [reflexivity|].
  rewrite Hlast. tauto.
Qed.

(** The check is thrown out only after raising a reminder, by a stamp
    write the quota refuses. *)
Lemma notificationCheck_unmounted fits today a a' :
  notificationCheck fits today a = Unmounted a' →
  fits (<["lastNotificationDate" := today]> (localStorage a)) = false
  ∧ ∃ g, g ∈ goals a ∧ a' = setNotification (reminder (Goal.title g)) a.
Proof.
  unfold notificationCheck, setItem.
  destruct (bool_decide _ && bool_decide _); [|discriminate].
  destruct (find _ (goals a)) as [g|] eqn:Hfind; [|discriminate].
  cbn [stored setNotification localStorage].
  destruct (fits _); [discriminate|]. intros [= <-].
  split; [reflexivity|]. exists g. split; [|reflexivity].
  apply find_some in Hfind as [Hin _]. by apply list_elem_of_In.
Qed.

(** The check when the stamp is stale and the first goal not completed
    today is known. *)
Lemma notificationCheck_first fits today a pre g post :
  localStorage a !! "lastNotificationDate" ≠ Some today →
  goals a = pre ++ g :: post →
  Forall (λ x, Goal.lastCompletedDate x = Some today) pre →
  Goal.lastCompletedDate g ≠ Some today →
  notificationCheck fits today a
  = match setItem fits "lastNotificationDate" today
            (setNotification (reminder (Goal.title g)) a) with
    | Some a2 => Running a2
    | None => Unmounted (setNotification (reminder (Goal.title g)) a)
    end.
Proof.
  intros Hstale Hsplit Hpre Hg. unfold notificationCheck.
  rewrite (bool_decide_eq_true_2 (_ ≠ _)) by assumption.
  rewrite (bool_decide_eq_true_2 (_ < _)%nat)
    by (rewrite Hsplit, length_app; cbn; lia).
  cbn [andb]. rewrite Hsplit.
  rewrite (find_first _ pre post g); [reflexivity| |].
  - eapply Forall_impl; [exact Hpre|]. intros x Hx.
    by apply completed_today_test.
  - by apply bool_decide_eq_true.
Qed.



(** X15: when the browser admits the stamp write, the reminder effect
    leaves the component running; run again on the state it left, it
    changes nothing; it raises at most one reminder and stamps today
    whenever it raises one.  Whatever the quota, a stamp equal to today
    makes the effect return at once. *)
Theorem notificationEffect_once_when_admitted
    (fits : gmap string string → bool) (today : string) (a : App) :
  (localStorage a !! "lastNotificationDate" = Some today →
     notificationEffect fits today a = Running a)
  ∧ (fits (<["lastNotificationDate" := today]> (localStorage a)) = true →
     ∃ a1 fired,
       notificationEffect fits today a = Running a1
       ∧ notificationEffect fits today a1 = Running a1
       ∧ trace a1 = trace a ++ fired
       ∧ (reminders fired ≤ 1)%nat
       ∧ (fired ≠ [] →
            localStorage a1 !! "lastNotificationDate" = Some today)).
Proof.
  unfold notificationEffect. split.
  - intros Hlast. destruct (loading a); [reflexivity|].
    by apply notificationCheck_stamped.
  - intros Hfits. destruct (loading a) eqn:Hload.
    { exists a, []. rewrite Hload, app_nil_r.
      split; [done|]. split; [done|]. split; [done|].
      split; [unfold reminders; cbn; lia | done]. }
    destruct (notificationCheck_cases fits today a)
      as [Hsame|(g & _ & Hfire)].
    + exists a, []. rewrite Hsame, Hload, app_nil_r.
      split; [done|]. split; [done|]. split; [done|].
      split; [unfold reminders; cbn; lia | done].
    + assert (notificationCheck fits today a
              = Running (stored "lastNotificationDate" today
                           (setNotification (reminder (Goal.title g)) a)))
        as Hrun.
      { destruct Hfire as [Hrun|Hthrown]; [exact Hrun|].
        revert Hthrown. unfold notificationCheck, setItem.
        destruct (bool_decide _ && bool_decide _); [|discriminate].
        destruct (find _ (goals a)); [|discriminate].
        cbn [stored setNotification localStorage]. rewrite Hfits.
        discriminate. }
      exists (stored "lastNotificationDate" today
                (setNotification (reminder (Goal.title g)) a)),
             [SetNotification (reminder (Goal.title g))].
      rewrite Hrun. cbn [stored setNotification loading]. rewrite Hload.
      split; [done|]. split.
      { apply notificationCheck_stamped. cbn. apply lookup_insert_eq. }
      split; [done|]. split; [unfold reminders; cbn; lia|].
      intros _. cbn. apply lookup_insert_eq.
Qed.

Lemma notificationEffect_once_when_admitted_witness :
  notificationEffect roomy "2024-01-05" reminded = Running reminded
  ∧ ∃ a1, notificationEffect roomy "2024-01-05" morning = Running a1
          ∧ notificationEffect roomy "2024-01-05" a1 = Running a1.
Proof.
  split.
  - destruct (notificationEffect_once_when_admitted roomy "2024-01-05"
                reminded) as [Hstamped _].
    apply Hstamped. reflexivity.
  - destruct (notificationEffect_once_when_admitted roomy "2024-01-05"
                morning) as [_ Hadmitted].
    destruct (Hadmitted eq_refl) as (a1 & fired & Hfirst & Hsecond & _).
    exists a1. by split.
Defined.

(** X16: with a stale stamp, a non-empty collection and a browser that
    admits the stamp write, the check picks the first goal in collection
    order that is not completed today, shows the banner text built around
    its title, records the call and stamps today; when every goal is
    completed today the state, stamp included, stays as it was. *)
Theorem notificationCheck_first_incomplete_admitted
    (fits : gmap string string → bool) (today : string) (a : App) :
  localStorage a !! "lastNotificationDate" ≠ Some today →
  goals a ≠ [] →
  (∀ pre g post,
     goals a = pre ++ g :: post →
     Forall (λ x, Goal.lastCompletedDate x = Some today) pre →
     Goal.lastCompletedDate g ≠ Some today →
     fits (<["lastNotificationDate" := today]> (localStorage a)) = true →
     ∃ a',
       notificationCheck fits today a = Running a'
       ∧ notification a'
         = Some ("Don't forget " +:+ Goal.title g
                 +:+ "! Keep your streak alive 🔥")
       ∧ trace a'
         = trace a
           ++ [SetNotification ("Don't forget " +:+ Goal.title g
                                +:+ "! Keep your streak alive 🔥")]
       ∧ localStorage a'
         = <["lastNotificationDate" := today]> (localStorage a)
       ∧ goals a' = goals a)
  ∧ (Forall (λ x, Goal.lastCompletedDate x = Some today) (goals a) →
     notificationCheck fits today a = Running a).
Proof.
  intros Hstale Hne. split.
  - intros pre g post Hsplit Hpre Hg Hfits.
    rewrite (notificationCheck_first fits today a pre g post) by assumption.
    unfold setItem. cbn [stored setNotification localStorage].
    rewrite Hfits. eexists. split; [reflexivity|]. by cbn.
  - intros Hall. unfold notificationCheck.
    destruct (bool_decide _ && bool_decide _); [|reflexivity].
    rewrite find_none; [reflexivity|].
    eapply Forall_impl; [exact Hall|]. intros x Hx.
    by apply completed_today_test.
Qed.

Lemma notificationCheck_first_incomplete_admitted_witness :
  ∃ a', notificationCheck roomy "2024-01-05" midday = Running a'
        ∧ notification a'
          = Some "Don't forget Read! Keep your streak alive 🔥"
        ∧ localStorage a' !! "lastNotificationDate" = Some "2024-01-05".
Proof.
  destruct (notificationCheck_first_incomplete_admitted roomy "2024-01-05"
              midday) as [Hfirst _].
  - vm_compute. discriminate.
  - discriminate.
  - destruct (Hfirst [done_goal] read_goal [fresh_goal])
      as (a' & Hrun & Hbanner & _ & Hstore & _).
    + reflexivity.
    + repeat constructor.
    + discriminate.
    + reflexivity.
    + exists a'. split; [exact Hrun|]. split; [exact Hbanner|].
      rewrite Hstore. reflexivity.
Defined.

(** ** Properties of the collection handlers *)

(** C9: [toggleGoal] touches one goal and two fields.  Positions are kept;
    a goal with another id is returned as it is; the goal with the given
    id keeps its id, title, description, creation time and photos; with no
    such goal in the collection the whole state is unchanged. *)
Theorem toggleGoal_frame (today yesterday id : string) (a : App) :
  length (goals (toggleGoal today yesterday id a)) = length (goals a)
  ∧ (∀ (i : nat) (g : Goal.t),
       goals a !! i = Some g →
       ∃ g', goals (toggleGoal today yesterday id a) !! i = Some g'
             ∧ (Goal.id g ≠ id → g' = g)
             ∧ Goal.id g' = Goal.id g
             ∧ Goal.title g' = Goal.title g
             ∧ Goal.description g' = Goal.description g
             ∧ Goal.createdAt g' = Goal.createdAt g
             ∧ Goal.photos g' = Goal.photos g)
  ∧ ((∀ g, g ∈ goals a → Goal.id g ≠ id) →
       toggleGoal today yesterday id a = a).
Proof.
  unfold toggleGoal, setGoals; cbn. split; [apply length_map|]. split.
  - intros i g Hi. rewrite list_lookup_fmap, Hi. cbn.
    destruct (decide (Goal.id g ≠ id)) as [Hid|Hid].
    + exists g. by repeat split.
    + exists (toggle today yesterday g).
      split; [reflexivity|]. split; [contradiction|].
      apply toggle_frame.
  - intros Hno. destruct a as [gs ld nt ls tr u c]; cbn in *. f_equal.
    induction gs as [|g gs IH]; [reflexivity|]. cbn.
    rewrite decide_True by (apply Hno; left).
    f_equal. apply IH. intros g' Hg'. apply Hno. by right.
Qed.

Lemma toggleGoal_frame_witness :
  goals (toggleGoal "2024-01-05" "2024-01-04" "g-3" midday)
    !! 1%nat = Some read_goal
  ∧ toggleGoal "2024-01-05" "2024-01-04" "g-9" midday = midday.
Proof.
  destruct (toggleGoal_frame "2024-01-05" "2024-01-04" "g-3" midday)
    as (_ & Hframe & _).
  destruct (toggleGoal_frame "2024-01-05" "2024-01-04" "g-9" midday)
    as (_ & _ & Hmiss).
  split.
  - destruct (Hframe 1%nat read_goal) as (g' & Hg' & Hsame & _);
      [reflexivity|].
    rewrite Hg'. f_equal. apply Hsame. discriminate.
  - apply Hmiss. intros g Hg. vm_compute in Hg.
    repeat (apply elem_of_cons in Hg as [->|Hg]; [discriminate|]).
    by apply elem_of_nil in Hg.
Defined.

(** The invariant of the data model survives [toggleGoal]. *)
Lemma toggleGoal_streaks_nonneg today yesterday id a :
  Forall (λ g, 0 ≤ Goal.streak g) (goals a) →
  Forall (λ g, 0 ≤ Goal.streak g) (goals (toggleGoal today yesterday id a)).
Proof.
  unfold toggleGoal, setGoals; cbn. intros Hall.
  apply Forall_fmap. eapply Forall_impl; [exact Hall|].
  intros g Hg; cbn in *. destruct (decide (Goal.id g ≠ id)); [exact Hg|].
  rewrite toggle_unfold.
  destruct (decide (Goal.lastCompletedDate g = Some today));
    [cbn -[Z.max]; lia|].
  destruct (decide (Goal.lastCompletedDate g = Some yesterday));
    cbn -[Z.max]; lia.
Qed.

(** C6: [addGoal] puts a new goal in front of the collection.  The new goal
    carries the given title and description, streak zero, no completion
    date, no photos and the current timestamp; the goals that were there
    follow it unchanged. *)
Theorem addGoal_prepends (randomUUID toISOString : nat → string)
    (title description : string) (a : App) :
  ∃ newGoal,
    goals (addGoal randomUUID toISOString title description a)
    = newGoal :: goals a
    ∧ Goal.id newGoal = randomUUID (uuid_calls a)
    ∧ Goal.title newGoal = title
    ∧ Goal.description newGoal = description
    ∧ Goal.createdAt newGoal = toISOString (clock_reads a)
    ∧ Goal.streak newGoal = 0
    ∧ Goal.lastCompletedDate newGoal = None
    ∧ Goal.photos newGoal = [].
Proof. eexists. split; [reflexivity|]. by repeat split. Qed.

(** ** Properties of photo attachment *)

Lemma attach_pointwise (randomUUID toISOString : nat → string)
    (id resizedBase64 : string) (gs : list Goal.t) (u c : nat) :
  Forall2 (attached id resizedBase64) gs
    (attach randomUUID toISOString id resizedBase64 u c gs).1.
Proof.
  revert u c. induction gs as [|g gs IH]; intros u c; cbn.
  - constructor.
  - destruct (decide (Goal.id g ≠ id)) as [Hid|Hid].
    + specialize (IH u c).
      destruct (attach _ _ _ _ u c gs) as [rest' uc]; cbn in *.
      constructor; [|exact IH]. split; [done | contradiction].
    + specialize (IH (S u) (S c)).
      destruct (attach _ _ _ _ (S u) (S c) gs) as [rest' uc]; cbn in *.
      constructor; [|exact IH]. split; [contradiction|].
      intros _. eexists. split; [|reflexivity]. reflexivity.
Qed.

(** C8: [addPhoto] is all or nothing.  When the resize is rejected the
    collection and every other data cell are as before and the failure goes
    to the console and to an alert.  When it resolves, every goal stays at
    its position, goals with another id are untouched, and the goal with
    the given id gets exactly one entry, holding the resized image, after
    the photos it already had. *)
Theorem addPhoto_atomic (randomUUID toISOString : nat → string)
    (id : string) (a : App) :
  (∀ error,
     addPhoto randomUUID toISOString id (Rejected error) a
     = mkApp (goals a) (loading a) (notification a) (localStorage a)
         (trace a ++ [ConsoleError "Error processing image";
                      Alert "Failed to process image. Try a smaller file."])
         (uuid_calls a) (clock_reads a))
  ∧ (∀ resizedBase64,
       let a' := addPhoto randomUUID toISOString id
                   (Resolved resizedBase64) a in
       length (goals a') = length (goals a)
       ∧ trace a' = trace a
       ∧ ∀ (i : nat) (g : Goal.t),
           goals a !! i = Some g →
           ∃ g', goals a' !! i = Some g'
                 ∧ (Goal.id g ≠ id → g' = g)
                 ∧ (Goal.id g = id →
                      ∃ entry,
                        PhotoEntry.dataUrl entry = resizedBase64
                        ∧ Goal.photos g' = Goal.photos g ++ [entry]
                        ∧ g' = Goal.with_photos g
                                 (Goal.photos g ++ [entry]))).
Proof.
  split.
  - intros error. unfold addPhoto, emit; cbn.
    by rewrite <- app_assoc.
  - intros url. cbn.
    pose proof (attach_pointwise randomUUID toISOString id url
                  (goals a) (uuid_calls a) (clock_reads a)) as Hpt.
    destruct (attach _ _ _ _ _ _ (goals a)) as [gs' [u c]]; cbn in *.
    split; [symmetry; by eapply Forall2_length|].
    split; [reflexivity|].
    intros i g Hi.
    destruct (Forall2_lookup_l _ _ _ _ _ Hpt Hi) as (g' & Hg' & Hsame & Hnew).
    exists g'. split; [exact Hg'|]. split; [exact Hsame|].
    intros Hid. destruct (Hnew Hid) as (entry & Hurl & ->).
    exists entry. by repeat split.
Qed.

Lemma addPhoto_atomic_witness :
  Goal.photos <$>
    goals (addPhoto sample_uuid sample_clock "g-1" (Resolved "data:image/jpeg;base64,AAAA") midday)
    !! 1%nat
  = Some [PhotoEntry.mk "uuid-0" "2024-01-05T09:00:00.000Z"
            "data:image/jpeg;base64,AAAA"]
  ∧ goals (addPhoto sample_uuid sample_clock "g-1" (Resolved "data:image/jpeg;base64,AAAA") midday)
      !! 0%nat = Some done_goal.
Proof.
  destruct (addPhoto_atomic sample_uuid sample_clock "g-1" midday)
    as [_ Hok].
  destruct (Hok "data:image/jpeg;base64,AAAA") as (_ & _ & Hat).
  split.
  - reflexivity.
  - destruct (Hat 0%nat done_goal) as (g' & Hg' & Hsame & _);
      [reflexivity|].
    rewrite Hg'. f_equal. apply Hsame. discriminate.
Defined.

(** ** Properties of loading *)

(** The empty string never reaches the decoder: it is falsy, so the effect
    treats it like a missing key. *)
Lemma loadEffect_empty_string JSON_parse storage :
  storage !! "goalQuestData" = Some "" →
  loadEffect JSON_parse (mount storage) = setLoading false (mount storage).
Proof.
  intros Hs. unfold loadEffect, mount. cbn [localStorage]. by rewrite Hs.
Qed.

Lemma loadEffect_absent JSON_parse storage :
  storage !! "goalQuestData" = None →
  loadEffect JSON_parse (mount storage) = setLoading false (mount storage).
Proof.
  intros Hs. unfold loadEffect, mount. cbn [localStorage]. by rewrite Hs.
Qed.

(** C7, as stated, fails on reporting: a stored empty string does not
    decode, the collection comes out empty, but nothing is sent to the
    console. *)
Lemma loadEffect_empty_string_silent :
  sample_parse "" = None
  ∧ goals (loadEffect sample_parse (mount {[ "goalQuestData" := "" ]})) = []
  ∧ trace (loadEffect sample_parse (mount {[ "goalQuestData" := "" ]})) = []
  ∧ ConsoleError "Failed to parse goals"
    ∉ trace (loadEffect sample_parse (mount {[ "goalQuestData" := "" ]})).
Proof.
  assert (trace (loadEffect sample_parse (mount {[ "goalQuestData" := "" ]}))
          = []) as Htrace by reflexivity.
  split; [reflexivity|]. split; [reflexivity|]. split; [exact Htrace|].
  rewrite Htrace. apply not_elem_of_nil.
Qed.

(** C7, amended: loading always ends with [loading = false] and never
    writes to storage.  A stored non-empty text that does not decode leaves
    the collection empty and logs one console error; a stored empty string
    leaves the collection empty and logs nothing; a stored text that decodes
    becomes the collection as it is. *)
Theorem loadEffect_decode (JSON_parse : string → option (list Goal.t))
    (storage : gmap string string) (saved : string) :
  storage !! "goalQuestData" = Some saved →
  let a := loadEffect JSON_parse (mount storage) in
  loading a = false
  ∧ localStorage a = storage
  ∧ (saved = "" → goals a = [] ∧ trace a = [])
  ∧ (saved ≠ "" → JSON_parse saved = None →
       goals a = [] ∧ trace a = [ConsoleError "Failed to parse goals"])
  ∧ (saved ≠ "" → ∀ parsed, JSON_parse saved = Some parsed →
       goals a = parsed ∧ trace a = []).
Proof.
  intros Hs. unfold loadEffect, mount. cbn [localStorage]. rewrite Hs.
  destruct (decide (saved ≠ "")) as [Hne|He].
  - destruct (JSON_parse saved) as [gs|] eqn:Hparse; cbn;
      (split; [reflexivity|]); (split; [reflexivity|]);
      (split; [intros ->; contradiction|]); split.
    + discriminate.
    + intros _ parsed [= <-]. by split.
    + intros _ _. by split.
    + discriminate.
  - cbn. split; [reflexivity|]. split; [reflexivity|].
    split; [by split|]. split; intros Hne; contradiction.
Qed.

Lemma loadEffect_decode_witness :
  (goals (loadEffect sample_parse (mount {[ "goalQuestData" := "{oops" ]}))
     = []
   ∧ trace (loadEffect sample_parse (mount {[ "goalQuestData" := "{oops" ]}))
     = [ConsoleError "Failed to parse goals"])
  ∧ goals (loadEffect sample_parse (mount {[ "goalQuestData" := "[]" ]}))
    = [].
Proof.
  split.
  - destruct (loadEffect_decode sample_parse
                {[ "goalQuestData" := "{oops" ]} "{oops")
      as (_ & _ & _ & Hfail & _); [reflexivity|].
    apply Hfail; [discriminate | reflexivity].
  - destruct (loadEffect_decode sample_parse
                {[ "goalQuestData" := "[]" ]} "[]")
      as (_ & _ & _ & _ & Hok); [reflexivity|].
    apply (Hok ltac:(discriminate) []). reflexivity.
Defined.

(** ** Further properties of the streak transition *)

(** X1: Unchecking a goal and checking it again on the same day does not give
    the streak back: whatever it was, it restarts at one. *)
Theorem toggle_uncheck_recheck (today yesterday : string) (goal : Goal.t) :
  Goal.lastCompletedDate goal = Some today →
  toggle today yesterday (toggle today yesterday goal)
  = Goal.with_completion goal (Some today) 1.
Proof.
  intros Ht. rewrite (toggle_unfold today yesterday goal).
  rewrite decide_True by assumption.
  rewrite toggle_unfold. cbn.
  rewrite decide_False by discriminate.
  rewrite decide_False by discriminate.
  reflexivity.
Qed.

Lemma toggle_uncheck_recheck_witness :
  Goal.streak
    (toggle "2024-01-05" "2024-01-04"
       (toggle "2024-01-05" "2024-01-04" streak_goal)) = 1.
Proof.
  rewrite (toggle_uncheck_recheck "2024-01-05" "2024-01-04" streak_goal).
  - reflexivity.
  - reflexivity.
Defined.


(** ** Properties of [deleteGoal] *)

(** X2: A confirmed delete keeps exactly the goals with another id, in their
    order; an id that no goal carries leaves the state as it is, and so
    does a second delete of the same id. *)
Theorem deleteGoal_removes (id : string) (a : App) :
  (∀ g, g ∈ goals (deleteGoal true id a) ↔ g ∈ goals a ∧ Goal.id g ≠ id)
  ∧ goals (deleteGoal true id a) `sublist_of` goals a
  ∧ ((∀ g, g ∈ goals a → Goal.id g ≠ id) → deleteGoal true id a = a)
  ∧ deleteGoal true id (deleteGoal true id a) = deleteGoal true id a.
Proof.
  assert (∀ gs : list Goal.t,
            (∀ g, g ∈ gs → Goal.id g ≠ id) →
            filter (λ g, Goal.id g ≠ id) gs = gs) as Hfix.
  { induction gs as [|g gs IH]; intros Hno; [reflexivity|].
    rewrite filter_cons_True by (apply Hno; left).
    f_equal. apply IH. intros g' Hg'. apply Hno. by right. }
  unfold deleteGoal, setGoals; cbn. split; [|split; [|split]].
  - intros g. rewrite list_elem_of_filter. tauto.
  - apply sublist_filter.
  - intros Hno. destruct a; cbn in *. f_equal. by apply Hfix.
  - f_equal. apply Hfix. intros g Hg.
    by apply list_elem_of_filter in Hg as [Hid _].
Qed.

(** ** Properties of the streak badge *)

Lemma activeStreaksCount_cons_inactive (g : Goal.t) (gs : list Goal.t) :
  Goal.streak g ≤ 0 →
  filter (λ g, 0 < Goal.streak g) (g :: gs)
  = filter (λ g, 0 < Goal.streak g) gs.
Proof. intros Hs. apply filter_cons_False. lia. Qed.

(** X3: The badge never counts more goals than there are, a goal just added is
    not counted, and deleting never raises the count. *)
Theorem activeStreaksCount_bounds (randomUUID toISOString : nat → string)
    (title description id : string) (confirmed : bool) (a : App) :
  (activeStreaksCount a ≤ length (goals a))%nat
  ∧ activeStreaksCount (addGoal randomUUID toISOString title description a)
    = activeStreaksCount a
  ∧ (activeStreaksCount (deleteGoal confirmed id a)
     ≤ activeStreaksCount a)%nat.
Proof.
  unfold activeStreaksCount. split; [apply length_filter|]. split.
  - cbn [addGoal goals]. by rewrite activeStreaksCount_cons_inactive.
  - destruct confirmed; cbn; [|lia].
    induction (goals a) as [|g gs IH]; [done|].
    rewrite (filter_cons (λ g, Goal.id g ≠ id)).
    destruct (decide (Goal.id g ≠ id));
      rewrite !(filter_cons (λ g, 0 < Goal.streak g));
      destruct (decide (0 < Goal.streak g)); cbn; lia.
Qed.

(** X4: In a collection of the intended shape every goal that carries a
    completion date is counted by the badge. *)
Theorem activeStreaksCount_counts_completed (a : App) :
  Forall wellformed (goals a) →
  (length (filter (λ g, Goal.lastCompletedDate g ≠ None) (goals a))
   ≤ activeStreaksCount a)%nat.
Proof.
  unfold activeStreaksCount.
  induction 1 as [|g gs [_ Hg] _ IH]; [done|].
  rewrite (filter_cons (λ g, Goal.lastCompletedDate g ≠ None)).
  rewrite (filter_cons (λ g, 0 < Goal.streak g)).
  destruct (decide (Goal.lastCompletedDate g ≠ None)) as [Hd|Hd].
  - rewrite decide_True by (specialize (Hg Hd); lia). cbn. lia.
  - destruct (decide (0 < Goal.streak g)); cbn; lia.
Qed.

Lemma midday_wellformed : Forall wellformed (goals midday).
Proof.
  repeat (apply Forall_cons; split); [| | |by apply Forall_nil].
  - split; cbn; intros; lia.
  - split; cbn; intros; lia.
  - split; cbn; [lia|]. intros H. by destruct H.
Qed.

Lemma activeStreaksCount_counts_completed_witness :
  (2 ≤ activeStreaksCount midday)%nat.
Proof.
  apply (activeStreaksCount_counts_completed midday).
  exact midday_wellformed.
Defined.

(** ** Frames of the effects and handlers *)

Lemma saveEffect_frame JSON_stringify fits a :
  goals (saveEffect JSON_stringify fits a) = goals a
  ∧ loading (saveEffect JSON_stringify fits a) = loading a
  ∧ notification (saveEffect JSON_stringify fits a) = notification a
  ∧ uuid_calls (saveEffect JSON_stringify fits a) = uuid_calls a
  ∧ reminders (trace (saveEffect JSON_stringify fits a))
    = reminders (trace a)
  ∧ ∀ k, k ≠ "goalQuestData" →
         localStorage (saveEffect JSON_stringify fits a) !! k
         = localStorage a !! k.
Proof.
  unfold saveEffect, setItem. destruct (negb (loading a)); [|done].
  destruct (fits _); cbn.
  - repeat split; try reflexivity. intros k Hk. by rewrite lookup_insert_ne.
  - repeat split; try reflexivity.
    unfold reminders. rewrite List.filter_app, length_app. cbn. lia.
Qed.

Lemma notificationEffect_frame fits today a :
  goals (last_state (notificationEffect fits today a)) = goals a
  ∧ loading (last_state (notificationEffect fits today a)) = loading a
  ∧ uuid_calls (last_state (notificationEffect fits today a)) = uuid_calls a
  ∧ ∀ k, k ≠ "lastNotificationDate" →
         localStorage (last_state (notificationEffect fits today a)) !! k
         = localStorage a !! k.
Proof.
  unfold notificationEffect. destruct (loading a) eqn:Hload; [done|].
  destruct (notificationCheck_cases fits today a)
    as [->|(g & _ & [->| ->])]; cbn; [done| |done].
  repeat split; try done. intros k Hk. by rewrite lookup_insert_ne.
Qed.

Lemma commitEffects_goals JSON_stringify fits today a :
  goals (last_state (commitEffects JSON_stringify fits today a)) = goals a.
Proof.
  unfold commitEffects.
  destruct (notificationEffect_frame fits today
              (saveEffect JSON_stringify fits a)) as (-> & _).
  apply saveEffect_frame.
Qed.

(** The first commit of a mount is inert: both effects see [loading]. *)
Lemma startup_unfold JSON_stringify fits JSON_parse today storage :
  startup JSON_stringify fits JSON_parse today storage
  = commitEffects JSON_stringify fits today
      (loadEffect JSON_parse (mount storage)).
Proof. reflexivity. Qed.

(** With an empty collection the reminder effect is inert. *)
Lemma notificationEffect_no_goals fits today a :
  goals a = [] → notificationEffect fits today a = Running a.
Proof.
  intros Hnil. unfold notificationEffect, notificationCheck.
  destruct (loading a); [reflexivity|].
  rewrite Hnil. cbn. by rewrite andb_false_r.
Qed.

(** ** Properties of saving and start-up *)

(** What loading leaves when the stored text is missing, empty or
    unreadable. *)
Lemma loadEffect_no_data JSON_parse storage :
  match storage !! "goalQuestData" with
  | None => True
  | Some saved => saved = "" ∨ JSON_parse saved = None
  end →
  ∃ log, loadEffect JSON_parse (mount storage)
         = mkApp [] false None storage log 0 0
         ∧ reminders log = 0%nat.
Proof.
  unfold loadEffect, mount. cbn [localStorage].
  destruct (storage !! "goalQuestData") as [saved|]; [|by exists []].
  destruct (decide (saved ≠ "")) as [Hne|He]; [|by exists []].
  intros [->|Hparse]; [done|]. rewrite Hparse.
  by exists [ConsoleError "Failed to parse goals"].
Qed.

(** X5: a mount over storage without readable goals leaves the component
    running with an empty collection, shows no reminder and leaves the
    reminder stamp alone; when the quota admits the write, whatever was
    stored under the goals key is replaced by the encoding of the empty
    collection. *)
Theorem startup_without_readable_data
    (JSON_stringify : list Goal.t → string)
    (fits : gmap string string → bool)
    (JSON_parse : string → option (list Goal.t))
    (today : string) (storage : gmap string string) :
  match storage !! "goalQuestData" with
  | None => True
  | Some saved => saved = "" ∨ JSON_parse saved = None
  end →
  ∃ a,
    startup JSON_stringify fits JSON_parse today storage = Running a
    ∧ goals a = []
    ∧ loading a = false
    ∧ notification a = None
    ∧ reminders (trace a) = 0%nat
    ∧ localStorage a !! "lastNotificationDate"
      = storage !! "lastNotificationDate"
    ∧ (fits (<["goalQuestData" := JSON_stringify []]> storage) = true →
       localStorage a !! "goalQuestData" = Some (JSON_stringify [])).
Proof.
  intros Hdata. rewrite startup_unfold.
  destruct (loadEffect_no_data JSON_parse storage Hdata) as (log & -> & Hlog).
  unfold commitEffects.
  rewrite notificationEffect_no_goals by apply saveEffect_frame.
  eexists. split; [reflexivity|].
  unfold saveEffect, setItem; cbn.
  destruct (fits _); cbn.
  - split; [done|]. split; [done|]. split; [done|]. split; [done|].
    split; [by rewrite lookup_insert_ne|].
    intros _. apply lookup_insert_eq.
  - split; [done|]. split; [done|]. split; [done|]. split; [|done].
    unfold reminders in *. rewrite List.filter_app, length_app, Hlog.
    reflexivity.
Qed.

Lemma startup_without_readable_data_witness :
  ∃ a, startup sample_stringify roomy sample_parse "2024-01-05"
         {[ "goalQuestData" := "{oops" ]} = Running a
       ∧ goals a = []
       ∧ localStorage a !! "goalQuestData" = Some "[]".
Proof.
  destruct (startup_without_readable_data sample_stringify roomy
              sample_parse "2024-01-05" {[ "goalQuestData" := "{oops" ]})
    as (a & Hrun & Hgoals & _ & _ & _ & _ & Hstored).
  - right. reflexivity.
  - exists a. split; [exact Hrun|]. split; [exact Hgoals|].
    apply Hstored. reflexivity.
Defined.

(** X6: a collection that was saved comes back on the next mount, provided
    the write was admitted and the decoder reads back what the encoder
    wrote.  The mounted component goes on running when the stamp write of
    the reminder effect is admitted as well. *)
Theorem reload_round_trip
    (JSON_stringify : list Goal.t → string)
    (fits : gmap string string → bool)
    (JSON_parse : string → option (list Goal.t))
    (today : string) (a : App) :
  loading a = false →
  fits (<["goalQuestData" := JSON_stringify (goals a)]> (localStorage a))
  = true →
  JSON_stringify (goals a) ≠ "" →
  JSON_parse (JSON_stringify (goals a)) = Some (goals a) →
  goals (last_state
           (startup JSON_stringify fits JSON_parse today
              (localStorage (saveEffect JSON_stringify fits a))))
  = goals a
  ∧ (fits (<["lastNotificationDate" := today]>
             (<["goalQuestData" := JSON_stringify (goals a)]>
                (localStorage a))) = true →
     ∃ a', startup JSON_stringify fits JSON_parse today
             (localStorage (saveEffect JSON_stringify fits a))
           = Running a'
           ∧ goals a' = goals a).
Proof.
  intros Hload Hfits Hne Hrt.
  assert (localStorage (saveEffect JSON_stringify fits a)
          = <["goalQuestData" := JSON_stringify (goals a)]> (localStorage a))
    as ->.
  { unfold saveEffect, setItem. cbn [stored localStorage].
    by rewrite Hload, Hfits. }
  set (store := <["goalQuestData" := JSON_stringify (goals a)]>
                  (localStorage a)) in *.
  assert (loadEffect JSON_parse (mount store)
          = mkApp (goals a) false None store [] 0 0) as Hloaded.
  { unfold loadEffect, mount. cbn [localStorage]. subst store.
    rewrite lookup_insert_eq, decide_True by assumption.
    by rewrite Hrt. }
  rewrite startup_unfold, Hloaded.
  split; [by rewrite commitEffects_goals|].
  intros Hstamp.
  assert (saveEffect JSON_stringify fits
            (mkApp (goals a) false None store [] 0 0)
          = mkApp (goals a) false None store [] 0 0) as Hsaved.
  { assert (<["goalQuestData" := JSON_stringify (goals a)]> store = store)
      as Hagain by (subst store; apply insert_insert_eq).
    unfold saveEffect, setItem, stored. cbn. by rewrite Hagain, Hfits. }
  unfold commitEffects. rewrite Hsaved.
  set (b := mkApp (goals a) false None store [] 0 0).
  pose proof (notificationEffect_frame fits today b) as (Hgoals & _).
  unfold notificationEffect in *. cbn [loading b] in *.
  destruct (notificationCheck_cases fits today b)
    as [Hsame|(g & _ & [Hrun|Hthrown])].
  - rewrite Hsame. by exists b.
  - rewrite Hrun in *. eexists. split; [reflexivity|]. exact Hgoals.
  - exfalso. revert Hthrown. unfold notificationCheck, setItem.
    destruct (bool_decide _ && bool_decide _); [|discriminate].
    destruct (find _ (goals b)); [|discriminate].
    cbn [stored setNotification localStorage b]. rewrite Hstamp.
    discriminate.
Qed.

(** The three goals of [midday] are written, read back and mounted. *)
Lemma reload_round_trip_witness :
  goals (last_state
           (startup sexp_stringify roomy sexp_parse "2024-01-05"
              (localStorage (saveEffect sexp_stringify roomy midday))))
  = [done_goal; read_goal; fresh_goal].
Proof.
  destruct (reload_round_trip sexp_stringify roomy sexp_parse
              "2024-01-05" midday) as [Hback _].
  - reflexivity.
  - reflexivity.
  - vm_compute. discriminate.
  - vm_compute. reflexivity.
  - exact Hback.
Defined.

(** ** Sessions *)

Section Session.
Context (JSON_stringify : list Goal.t → string).
Context (fits : gmap string string → bool).
Context (randomUUID toISOString : nat → string).
Context (today yesterday : string).

Local Abbreviation on_action :=
  (handle randomUUID toISOString today yesterday).
Local Abbreviation next :=
  (step JSON_stringify fits randomUUID toISOString today yesterday).
Local Abbreviation session :=
  (run JSON_stringify fits randomUUID toISOString today yesterday).

Lemma attach_ids id url (gs : list Goal.t) (u c : nat) :
  Goal.id <$> (attach randomUUID toISOString id url u c gs).1
  = Goal.id <$> gs
  ∧ (u ≤ (attach randomUUID toISOString id url u c gs).2.1)%nat.
Proof.
  revert u c. induction gs as [|g gs IH]; intros u c; cbn; [done|].
  destruct (decide (Goal.id g ≠ id)).
  - specialize (IH u c).
    destruct (attach _ _ _ _ u c gs) as [rest' [u' c']]; cbn in *.
    destruct IH as [-> Hu]. done.
  - specialize (IH (S u) (S c)).
    destruct (attach _ _ _ _ (S u) (S c) gs) as [rest' [u' c']]; cbn in *.
    destruct IH as [-> Hu]. split; [done | lia].
Qed.

(** No handler writes to storage, flips [loading] or shows a reminder. *)
Lemma handle_frame act a :
  localStorage (on_action act a) = localStorage a
  ∧ loading (on_action act a) = loading a
  ∧ reminders (trace (on_action act a)) = reminders (trace a).
Proof.
  destruct act as [title description|confirmed id|id|id [url|err]|]; cbn;
    try done.
  - by destruct confirmed.
  - by destruct (attach _ _ _ _ _ _ (goals a)) as [gs [u c]].
  - repeat split. unfold reminders.
    rewrite !List.filter_app, !length_app. cbn. lia.
Qed.


(** An invariant of the states a session passes through holds of the state
    it ends in, whether the component is still mounted or not. *)
Lemma session_invariant (P : App → Prop) :
  (∀ act a, P a → P (last_state (next a act))) →
  ∀ acts a, P a → P (last_state (session acts a)).
Proof.
  intros Hstep. induction acts as [|act acts IH]; intros a Ha; [exact Ha|].
  cbn [run]. specialize (Hstep act a Ha).
  destruct (next a act) as [a'|a']; [by apply IH | exact Hstep].
Qed.



(** One step raises no reminder once the day is stamped, and at most one
    otherwise; after raising one the component is stamped or unmounted. *)
Lemma step_reminders act a :
  (localStorage a !! "lastNotificationDate" = Some today →
     ∃ a', next a act = Running a'
           ∧ reminders (trace a') = reminders (trace a)
           ∧ localStorage a' !! "lastNotificationDate" = Some today)
  ∧ match next a act with
    | Running a' =>
        reminders (trace a') = reminders (trace a)
        ∨ reminders (trace a') = S (reminders (trace a))
          ∧ localStorage a' !! "lastNotificationDate" = Some today
    | Unmounted a' => (reminders (trace a') ≤ S (reminders (trace a)))%nat
    end.
Proof.
  destruct (handle_frame act a) as (Hstore & _ & Hrem).
  unfold step. destruct (calls_setGoals act).
  2:{ split; [|by left]. intros Hs. eexists. split; [reflexivity|].
      by rewrite Hstore. }
  unfold commitEffects.
  destruct (saveEffect_frame JSON_stringify fits (on_action act a))
    as (_ & _ & _ & _ & Hrem' & Hstore').
  specialize (Hstore' "lastNotificationDate" ltac:(done)).
  rewrite Hstore in Hstore'. rewrite Hrem in Hrem'.
  set (b := saveEffect JSON_stringify fits (on_action act a)) in *.
  split.
  - intros Hstamp. rewrite <- Hstore' in Hstamp.
    exists b. unfold notificationEffect.
    rewrite notificationCheck_stamped by assumption.
    by destruct (loading b).
  - unfold notificationEffect. destruct (loading b); [by left|].
    destruct (notificationCheck_cases fits today b)
      as [->|(g & _ & [->| ->])]; [by left| |].
    + right. cbn. split; [|apply lookup_insert_eq].
      unfold reminders in *. rewrite List.filter_app, length_app, Hrem'.
      cbn. lia.
    + cbn. unfold reminders in *.
      rewrite List.filter_app, length_app, Hrem'. cbn. lia.
Qed.

(** X8: whatever the user does during one calendar day, and however often
    the effects run again, at most one reminder is raised; none at all once
    the day is stamped, and the component then stays mounted. *)
Theorem run_one_reminder (acts : list Action) (a : App) :
  (reminders (trace (last_state (session acts a)))
   ≤ S (reminders (trace a)))%nat
  ∧ (localStorage a !! "lastNotificationDate" = Some today →
     ∃ a', session acts a = Running a'
           ∧ reminders (trace a') = reminders (trace a)).
Proof.
  assert (∀ acts a,
            localStorage a !! "lastNotificationDate" = Some today →
            ∃ a', session acts a = Running a'
                  ∧ reminders (trace a') = reminders (trace a))
    as Hstamped.
  { clear. induction acts as [|act acts IH]; intros a Hstamp;
      [by exists a|].
    cbn [run]. destruct (step_reminders act a) as [Hkeep _].
    destruct (Hkeep Hstamp) as (a1 & -> & Hrem & Hstamp').
    destruct (IH a1 Hstamp') as (a' & -> & Hrem').
    exists a'. split; [reflexivity | congruence]. }
  split; [|apply Hstamped].
  revert a. induction acts as [|act acts IH]; intros a; cbn [run];
    [cbn; lia|].
  destruct (step_reminders act a) as [_ Hstep].
  destruct (next a act) as [a1|a1]; [|exact Hstep].
  destruct Hstep as [Hsame|[Hfired Hstamp]].
  - rewrite <- Hsame. apply IH.
  - destruct (Hstamped acts a1 Hstamp) as (a' & -> & Hrem). cbn. lia.
Qed.

(** Identifiers survive when the id list only loses entries and the
    generator only moves forward. *)
Lemma ids_issued_shrink (a b : App) :
  Goal.id <$> goals b `sublist_of` Goal.id <$> goals a →
  (uuid_calls a ≤ uuid_calls b)%nat →
  ids_issued randomUUID a → ids_issued randomUUID b.
Proof.
  intros Hsub Hcalls [Hnd Hall]. split.
  - by eapply sublist_NoDup.
  - apply Forall_forall. intros i Hi.
    assert (i ∈ Goal.id <$> goals a) as Hi'
      by (eapply sublist_subseteq; eassumption).
    destruct (proj1 (Forall_forall _ _) Hall i Hi') as (n & Hn & ->).
    exists n. split; [lia | reflexivity].
Qed.

Lemma toggleGoal_ids id a :
  Goal.id <$> goals (toggleGoal today yesterday id a) = Goal.id <$> goals a.
Proof.
  unfold toggleGoal, setGoals; cbn. rewrite <- list_fmap_compose.
  apply list_fmap_ext. intros _ g _. cbn.
  destruct (decide (Goal.id g ≠ id)); [reflexivity|]. apply toggle_frame.
Qed.

Lemma handle_ids_issued act a :
  (∀ m n, randomUUID m = randomUUID n → m = n) →
  ids_issued randomUUID a → ids_issued randomUUID (on_action act a).
Proof.
  intros Hinj Hids.
  destruct act as [title description|confirmed id|id|id [url|err]|]; cbn.
  - destruct Hids as [Hnd Hall]. split; cbn.
    + apply NoDup_cons. split; [|exact Hnd]. intros Hin.
      destruct (proj1 (Forall_forall _ _) Hall _ Hin) as (n & Hn & Heq).
      apply Hinj in Heq. lia.
    + apply Forall_cons. split; [exists (uuid_calls a); split; [lia|done]|].
      eapply Forall_impl; [exact Hall|]. cbn.
      intros i (n & Hn & ->). exists n. split; [lia | reflexivity].
  - destruct confirmed; [|exact Hids].
    eapply ids_issued_shrink; [| |exact Hids]; cbn; [|lia].
    apply fmap_sublist, sublist_filter.
  - eapply ids_issued_shrink; [| |exact Hids]; [|cbn; lia].
    by rewrite toggleGoal_ids.
  - eapply ids_issued_shrink; [| |exact Hids].
    + destruct (attach_ids id url (goals a) (uuid_calls a) (clock_reads a))
        as [Hsame _].
      destruct (attach _ _ _ _ _ _ (goals a)) as [gs [u c]]; cbn in *.
      by rewrite Hsame.
    + destruct (attach_ids id url (goals a) (uuid_calls a) (clock_reads a))
        as [_ Hle].
      by destruct (attach _ _ _ _ _ _ (goals a)) as [gs [u c]].
  - exact Hids.
  - exact Hids.
Qed.

Lemma commitEffects_ids_issued a :
  ids_issued randomUUID a →
  ids_issued randomUUID
    (last_state (commitEffects JSON_stringify fits today a)).
Proof.
  apply ids_issued_shrink.
  - by rewrite commitEffects_goals.
  - unfold commitEffects.
    destruct (notificationEffect_frame fits today
                (saveEffect JSON_stringify fits a)) as (_ & _ & -> & _).
    destruct (saveEffect_frame JSON_stringify fits a) as (_ & _ & _ & -> & _).
    lia.
Qed.

(** X9: when the identifier generator never repeats itself, goal ids stay
    pairwise distinct throughout a session. *)
Theorem run_ids_unique (acts : list Action) (a : App) :
  (∀ m n, randomUUID m = randomUUID n → m = n) →
  ids_issued randomUUID a →
  ids_issued randomUUID (last_state (session acts a))
  ∧ NoDup (Goal.id <$> goals (last_state (session acts a))).
Proof.
  intros Hinj Hids.
  assert (ids_issued randomUUID (last_state (session acts a))) as Hend.
  { revert acts a Hids. apply (session_invariant (ids_issued randomUUID)).
    intros act a Hids. unfold step.
    destruct (calls_setGoals act).
    - by apply commitEffects_ids_issued, handle_ids_issued.
    - by apply handle_ids_issued. }
  split; [exact Hend | apply Hend].
Qed.

(** X10: when the quota refuses the save that follows a change of the
    collection, the alert is raised and the stored goals keep their
    previous value.  If the component is still mounted after the commit,
    its collection is the one the handler produced; it is still mounted
    whenever the day is already stamped, and it is unmounted only when the
    reminder check raises a reminder for one of the goals and its stamp
    write is refused too. *)
Theorem step_quota_refused (act : Action) (a : App) :
  loading a = false →
  calls_setGoals act = true →
  fits (<["goalQuestData" := JSON_stringify (goals (on_action act a))]>
          (localStorage a)) = false →
  localStorage (last_state (next a act)) !! "goalQuestData"
  = localStorage a !! "goalQuestData"
  ∧ Alert "Storage limit reached! Please delete some photos or goals."
    ∈ trace (last_state (next a act))
  ∧ next a act
    = notificationCheck fits today
        (emit (Alert "Storage limit reached! Please delete some photos or goals.")
           (on_action act a))
  ∧ (∀ a', next a act = Running a' → goals a' = goals (on_action act a))
  ∧ (∀ a', next a act = Unmounted a' →
       fits (<["lastNotificationDate" := today]> (localStorage a)) = false
       ∧ ∃ g, g ∈ goals (on_action act a)
              ∧ notification a' = Some (reminder (Goal.title g)))
  ∧ (localStorage a !! "lastNotificationDate" = Some today →
     next a act
     = Running
         (emit (Alert "Storage limit reached! Please delete some photos or goals.")
            (on_action act a))).
Proof.
  intros Hload Hset Hfull.
  destruct (handle_frame act a) as (Hstore & Hload' & _).
  assert (next a act
          = notificationCheck fits today
              (emit (Alert "Storage limit reached! Please delete some photos or goals.")
                 (on_action act a))) as Hnext.
  { unfold step, commitEffects, saveEffect, setItem. rewrite Hset.
    cbn [stored localStorage]. rewrite Hload', Hload, Hstore, Hfull.
    cbn [negb]. unfold notificationEffect. cbn [emit loading].
    by rewrite Hload', Hload. }
  set (b := emit _ (on_action act a)) in *.
  assert (Alert "Storage limit reached! Please delete some photos or goals."
          ∈ trace b) as Hin.
  { cbn. apply elem_of_app. right. by left. }
  rewrite Hnext.
  assert (∀ a', notificationCheck fits today b = Unmounted a' →
            fits (<["lastNotificationDate" := today]> (localStorage a))
            = false
            ∧ ∃ g, g ∈ goals (on_action act a)
                   ∧ notification a' = Some (reminder (Goal.title g)))
    as Hout.
  { intros a' Hthrown.
    apply notificationCheck_unmounted in Hthrown as (Hno & g & Hg & ->).
    split; [subst b; cbn in Hno; by rewrite Hstore in Hno|].
    exists g. by split. }
  destruct (notificationCheck_cases fits today b)
    as [Hsame|(g & _ & [Hrun|Hthrown])].
  - rewrite Hsame in *. cbn [last_state]. split; [by rewrite <- Hstore|].
    split; [exact Hin|]. split; [reflexivity|].
    split; [by intros a' [= <-]|]. split; [exact Hout | done].
  - rewrite Hrun in *. cbn [last_state]. split.
    { cbn. rewrite lookup_insert_ne by done. by rewrite Hstore. }
    split; [cbn; apply elem_of_app; by left|]. split; [reflexivity|].
    split; [by intros a' [= <-]|]. split; [exact Hout|].
    intros Hstamp. rewrite <- Hrun. apply notificationCheck_stamped.
    cbn. by rewrite Hstore.
  - rewrite Hthrown in *. cbn [last_state].
    split; [cbn; by rewrite Hstore|].
    split; [cbn; apply elem_of_app; by left|]. split; [reflexivity|].
    split; [discriminate|]. split; [exact Hout|].
    intros Hstamp. rewrite <- Hthrown. apply notificationCheck_stamped.
    cbn. by rewrite Hstore.
Qed.
End Session.


Lemma run_one_reminder_witness :
  ∃ a', run sample_stringify roomy sample_uuid sample_clock
          "2024-01-05" "2024-01-04" busy_day reminded = Running a'
        ∧ reminders (trace a') = 1%nat.
Proof.
  destruct (run_one_reminder sample_stringify roomy sample_uuid sample_clock
              "2024-01-05" "2024-01-04" busy_day reminded) as [_ Hquiet].
  destruct (Hquiet eq_refl) as (a' & Hrun & Hrem).
  exists a'. split; [exact Hrun|]. rewrite Hrem. reflexivity.
Defined.

Lemma sample_uuid_inj (m n : nat) : sample_uuid m = sample_uuid n → m = n.
Proof.
  unfold sample_uuid. cbn. intros H. injection H as H.
  by apply (inj pretty).
Qed.

Lemma run_ids_unique_witness :
  NoDup
    (Goal.id <$>
       goals (last_state
                (run sample_stringify roomy sample_uuid sample_clock
                   "2024-01-05" "2024-01-04" busy_day blank))).
Proof.
  apply (run_ids_unique sample_stringify roomy sample_uuid sample_clock
           "2024-01-05" "2024-01-04" busy_day blank).
  - exact sample_uuid_inj.
  - split; cbn; constructor.
Defined.

(** The save is refused and the day is already stamped: the toggle is kept
    in memory (streak 1) and nothing is stored. *)
Lemma step_quota_refused_witness :
  step sample_stringify exhausted sample_uuid sample_clock
    "2024-01-05" "2024-01-04" reminded (DoToggleGoal "g-3")
  = Running
      (emit (Alert "Storage limit reached! Please delete some photos or goals.")
         (toggleGoal "2024-01-05" "2024-01-04" "g-3" reminded))
  ∧ localStorage
      (last_state
         (step sample_stringify exhausted sample_uuid sample_clock
            "2024-01-05" "2024-01-04" reminded (DoToggleGoal "g-3")))
      !! "goalQuestData" = None.
Proof.
  destruct (step_quota_refused sample_stringify exhausted sample_uuid
              sample_clock "2024-01-05" "2024-01-04"
              (DoToggleGoal "g-3") reminded)
    as (Hstore & _ & _ & _ & _ & Hstamped).
  - reflexivity.
  - reflexivity.
  - reflexivity.
  - split; [apply Hstamped; reflexivity|]. rewrite Hstore. reflexivity.
Defined.

(** ** How the handlers compose *)

Lemma toggle_with_photos today yesterday goal ps :
  toggle today yesterday (Goal.with_photos goal ps)
  = Goal.with_photos (toggle today yesterday goal) ps.
Proof.
  rewrite !toggle_unfold. cbn.
  destruct (decide (Goal.lastCompletedDate goal = Some today));
    reflexivity.
Qed.

Lemma attach_toggle (randomUUID toISOString : nat → string)
    (today yesterday id id' url : string) (gs : list Goal.t) (u c : nat) :
  attach randomUUID toISOString id url u c
    (map (λ goal, if decide (Goal.id goal ≠ id') then goal
                  else toggle today yesterday goal) gs)
  = (map (λ goal, if decide (Goal.id goal ≠ id') then goal
                  else toggle today yesterday goal)
       (attach randomUUID toISOString id url u c gs).1,
     (attach randomUUID toISOString id url u c gs).2).
Proof.
  revert u c. induction gs as [|g gs IH]; intros u c; [reflexivity|].
  cbn [map attach].
  assert (Goal.id (if decide (Goal.id g ≠ id') then g
                   else toggle today yesterday g) = Goal.id g) as Hid.
  { destruct (decide (Goal.id g ≠ id')); [reflexivity|]. apply toggle_frame. }
  rewrite Hid. destruct (decide (Goal.id g ≠ id)).
  - rewrite IH. by destruct (attach _ _ _ _ u c gs) as [rest' uc].
  - rewrite IH.
    destruct (attach _ _ _ _ (S u) (S c) gs) as [rest' uc]. cbn.
    destruct (decide (Goal.id g ≠ id')); [reflexivity|].
    rewrite toggle_with_photos.
    destruct (toggle_frame today yesterday g) as (_ & _ & _ & _ & ->).
    reflexivity.
Qed.

(** X11: A photo that finishes resizing after a toggle lands on the toggled
    collection: the outcome is the same as if the photo had come first. *)
Theorem addPhoto_toggleGoal_commute (randomUUID toISOString : nat → string)
    (today yesterday id id' : string) (resized : Awaited) (a : App) :
  addPhoto randomUUID toISOString id resized
    (toggleGoal today yesterday id' a)
  = toggleGoal today yesterday id'
      (addPhoto randomUUID toISOString id resized a).
Proof.
  destruct resized as [url|err]; [|reflexivity].
  unfold addPhoto, toggleGoal, setGoals. cbn [goals uuid_calls clock_reads
    loading notification localStorage trace].
  rewrite attach_toggle.
  by destruct (attach _ _ _ _ _ _ (goals a)) as [gs [u c]].
Qed.

Lemma attach_no_match (randomUUID toISOString : nat → string)
    (id url : string) (gs : list Goal.t) (u c : nat) :
  (∀ g, g ∈ gs → Goal.id g ≠ id) →
  attach randomUUID toISOString id url u c gs = (gs, (u, c)).
Proof.
  induction gs as [|g gs IH]; intros Hno; [reflexivity|]. cbn.
  rewrite decide_True by (apply Hno; left).
  rewrite IH; [reflexivity|]. intros g' Hg'. apply Hno. by right.
Qed.

(** X12: A photo for an id that no goal carries is dropped without a trace:
    the state is unchanged and no identifier or timestamp is drawn.  This
    is what happens to a photo whose goal was deleted while it was being
    resized. *)
Theorem addPhoto_without_goal (randomUUID toISOString : nat → string)
    (id url : string) (a : App) :
  ((∀ g, g ∈ goals a → Goal.id g ≠ id) →
     addPhoto randomUUID toISOString id (Resolved url) a = a)
  ∧ addPhoto randomUUID toISOString id (Resolved url)
      (deleteGoal true id a)
    = deleteGoal true id a.
Proof.
  assert (∀ b : App, (∀ g, g ∈ goals b → Goal.id g ≠ id) →
            addPhoto randomUUID toISOString id (Resolved url) b = b) as Hdrop.
  { intros b Hno. unfold addPhoto. rewrite attach_no_match by assumption.
    by destruct b. }
  split; [apply Hdrop|]. apply Hdrop. cbn. intros g Hg.
  by apply list_elem_of_filter in Hg as [Hid _].
Qed.

Lemma addPhoto_without_goal_witness :
  addPhoto sample_uuid sample_clock "g-9"
    (Resolved "data:image/jpeg;base64,AAAA") midday = midday.
Proof.
  destruct (addPhoto_without_goal sample_uuid sample_clock "g-9"
              "data:image/jpeg;base64,AAAA" midday) as [Hdrop _].
  apply Hdrop. intros g Hg. cbn in Hg.
  repeat (apply elem_of_cons in Hg as [->|Hg]; [discriminate|]).
  by apply elem_of_nil in Hg.
Defined.

Lemma skip_other_ids (f : Goal.t → Goal.t) (id : string) (gs : list Goal.t) :
  (∀ g, g ∈ gs → Goal.id g ≠ id) →
  map (λ goal, if decide (Goal.id goal ≠ id) then goal else f goal) gs = gs.
Proof.
  induction gs as [|g gs IH]; intros Hno; [reflexivity|]. cbn.
  rewrite decide_True by (apply Hno; left).
  f_equal. apply IH. intros g' Hg'. apply Hno. by right.
Qed.

(** X13: When the identifier drawn for a new goal is not in use, deleting the
    goal right after adding it gives the collection back, and checking it
    instead turns just that goal into one completed today with streak
    one. *)
Theorem addGoal_then (randomUUID toISOString : nat → string)
    (today yesterday title description : string) (a : App) :
  (∀ g, g ∈ goals a → Goal.id g ≠ randomUUID (uuid_calls a)) →
  goals (deleteGoal true (randomUUID (uuid_calls a))
           (addGoal randomUUID toISOString title description a))
  = goals a
  ∧ goals (toggleGoal today yesterday (randomUUID (uuid_calls a))
             (addGoal randomUUID toISOString title description a))
    = Goal.mk (randomUUID (uuid_calls a)) title description
        (toISOString (clock_reads a)) 1 (Some today) []
      :: goals a.
Proof.
  intros Hfresh. split.
  - unfold deleteGoal, addGoal, setGoals. cbn [goals].
    rewrite filter_cons_False by (cbn; intros Hne; by apply Hne).
    induction (goals a) as [|g gs IH]; [reflexivity|].
    rewrite filter_cons_True by (apply Hfresh; left).
    f_equal. apply IH. intros g' Hg'. apply Hfresh. by right.
  - cbn. rewrite decide_False by (intros Hne; by apply Hne).
    by rewrite skip_other_ids.
Qed.

Lemma addGoal_then_witness :
  goals (deleteGoal true "uuid-0"
           (addGoal sample_uuid sample_clock "Cook" "" midday))
  = goals midday.
Proof.
  destruct (addGoal_then sample_uuid sample_clock "2024-01-05" "2024-01-04"
              "Cook" "" midday) as [Hback _]; [|exact Hback].
  intros g Hg. cbn in Hg.
  repeat (apply elem_of_cons in Hg as [->|Hg]; [discriminate|]).
  by apply elem_of_nil in Hg.
Defined.

Lemma deleteGoal_removes_witness :
  deleteGoal true "g-9" midday = midday.
Proof.
  destruct (deleteGoal_removes "g-9" midday) as (_ & _ & Hmiss & _).
  apply Hmiss. intros g Hg. cbn in Hg.
  repeat (apply elem_of_cons in Hg as [->|Hg]; [discriminate|]).
  by apply elem_of_nil in Hg.
Defined.

(** ** What a session leaves in storage *)

(** X14: a session writes under two keys only.  Every other key keeps its
    value, and the reminder stamp either keeps its value or becomes
    today. *)
Theorem run_storage_keys
    (JSON_stringify : list Goal.t → string)
    (fits : gmap string string → bool)
    (randomUUID toISOString : nat → string)
    (today yesterday : string) (acts : list Action) (a : App) :
  (∀ k, k ≠ "goalQuestData" → k ≠ "lastNotificationDate" →
        localStorage
          (last_state
             (run JSON_stringify fits randomUUID toISOString today yesterday
                acts a)) !! k
        = localStorage a !! k)
  ∧ (localStorage
       (last_state
          (run JSON_stringify fits randomUUID toISOString today yesterday
             acts a)) !! "lastNotificationDate"
     = localStorage a !! "lastNotificationDate"
     ∨ localStorage
         (last_state
            (run JSON_stringify fits randomUUID toISOString today yesterday
               acts a)) !! "lastNotificationDate"
       = Some today).
Proof.
  apply (session_invariant JSON_stringify fits randomUUID toISOString
           today yesterday
           (λ b, (∀ k, k ≠ "goalQuestData" → k ≠ "lastNotificationDate" →
                       localStorage b !! k = localStorage a !! k)
                 ∧ (localStorage b !! "lastNotificationDate"
                    = localStorage a !! "lastNotificationDate"
                    ∨ localStorage b !! "lastNotificationDate"
                      = Some today)));
    [|split; [done | by left]].
  intros act b [Hother Hstamp]. unfold step.
  destruct (handle_frame randomUUID toISOString today yesterday act b)
    as (Hstore & _ & _).
  destruct (calls_setGoals act);
    [|cbn [last_state]; rewrite Hstore; by split].
  unfold commitEffects.
  set (h := handle randomUUID toISOString today yesterday act b) in *.
  destruct (saveEffect_frame JSON_stringify fits h)
    as (_ & _ & _ & _ & _ & Hsave).
  destruct (notificationEffect_frame fits today
              (saveEffect JSON_stringify fits h)) as (_ & _ & _ & Hnote).
  split.
  - intros k Hk1 Hk2. rewrite Hnote, Hsave, Hstore by done. by apply Hother.
  - unfold notificationEffect.
    destruct (loading (saveEffect JSON_stringify fits h)).
    { cbn [last_state]. by rewrite Hsave, Hstore. }
    destruct (notificationCheck_cases fits today
                (saveEffect JSON_stringify fits h))
      as [->|(g & _ & [->| ->])]; cbn [last_state].
    + by rewrite Hsave, Hstore.
    + right. cbn. apply lookup_insert_eq.
    + cbn [setNotification localStorage]. by rewrite Hsave, Hstore.
Qed.
